(** * grigri.dates.range: ranges of calendar dates

    A shallow embedding of [grigri/dates/range.py] and a verification of
    its documented behaviour.

    The module builds on three collaborators:
    - [datetime] / [timedelta] of the Python standard library,
    - [pandas.date_range],
    - [first_of] / [end_of] of [grigri.dates.scalar].

    A [datetime] is a point of the proleptic Gregorian time line: the
    ordinal of its calendar day ([datetime.toordinal]) and the microsecond
    within that day.  The library holds the days 0001-01-01 to 9999-12-31
    only, and its arithmetic raises [OverflowError] beyond them
    ([timedelta], [datetime_add]).  [pandas] is taken at a resolution that
    holds every such day. *)

From Stdlib Require Import ZArith List String Bool Lia Sorted.
Import ListNotations.
Local Open Scope string_scope.
Local Open Scope list_scope.
Local Open Scope Z_scope.

(** ** Outcomes of a call: a value, or a raised exception *)

Inductive exn : Type :=
| AssertionError (msg : string)
| OverflowError                         (* date arithmetic out of range *)
| TypeError                             (* arguments that do not bind *)
| BadArgumentType                       (* see [call_date_range] *)
| UnrecognizedFrequency (code : string).

Inductive result (A : Type) : Type :=
| Ok (a : A)
| Raise (e : exn).

Arguments Ok {A} a.
Arguments Raise {A} e.

Definition bind {A B : Type} (r : result A) (k : A -> result B) : result B :=
  match r with
  | Ok a => k a
  | Raise e => Raise e
  end.

Notation "x <- c ;; k" := (bind c (fun x => k))
  (at level 61, c at next level, right associativity).

(** [assert cond, msg] *)
Definition assert (cond : bool) (msg : string) : result unit :=
  if cond then Ok tt else Raise (AssertionError msg).

(** ** The Gregorian calendar, as the [datetime] module computes it *)

Module Calendar.

Definition is_leap (year : Z) : bool :=
  (year mod 4 =? 0) && (negb (year mod 100 =? 0) || (year mod 400 =? 0)).

(** Number of days before January 1st of [year]. *)
Definition days_before_year (year : Z) : Z :=
  let y := year - 1 in
  y * 365 + y / 4 - y / 100 + y / 400.

(** Index 0 is a placeholder: months are numbered from 1. *)
Definition DAYS_IN_MONTH : list Z :=
  [0; 31; 28; 31; 30; 31; 30; 31; 31; 30; 31; 30; 31].

Definition DAYS_BEFORE_MONTH : list Z :=
  [0; 0; 31; 59; 90; 120; 151; 181; 212; 243; 273; 304; 334].

Definition days_in_month (year month : Z) : Z :=
  if (month =? 2) && is_leap year then 29
  else nth (Z.to_nat month) DAYS_IN_MONTH 0.

(** Number of days in [year] before the first day of [month]. *)
Definition days_before_month (year month : Z) : Z :=
  nth (Z.to_nat month) DAYS_BEFORE_MONTH 0
  + (if (2 <? month) && is_leap year then 1 else 0).

(** Ordinal of a calendar day; 0001-01-01 is day 1. *)
Definition ymd2ord (year month day : Z) : Z :=
  days_before_year year + days_before_month year month + day.

Definition DI400Y : Z := 146097.
Definition DI100Y : Z := 36524.
Definition DI4Y : Z := 1461.

(** Calendar day of an ordinal: the inverse of [ymd2ord]. *)
Definition ord2ymd (n : Z) : Z * Z * Z :=
  let n := n - 1 in
  let n400 := n / DI400Y in
  let n := n mod DI400Y in
  let year := n400 * 400 + 1 in
  let n100 := n / DI100Y in
  let n := n mod DI100Y in
  let n4 := n / DI4Y in
  let n := n mod DI4Y in
  let n1 := n / 365 in
  let n := n mod 365 in
  let year := year + n100 * 100 + n4 * 4 + n1 in
  if (n1 =? 4) || (n100 =? 4) then (year - 1, 12, 31)
  else
    let leapyear := (n1 =? 3) && (negb (n4 =? 24) || (n100 =? 3)) in
    let month := Z.shiftr (n + 50) 5 in
    let preceding :=
      nth (Z.to_nat month) DAYS_BEFORE_MONTH 0
      + (if (2 <? month) && leapyear then 1 else 0) in
    let '(month, preceding) :=
      if n <? preceding
      then (month - 1,
            preceding - (if (month - 1 =? 2) && leapyear then 29
                         else nth (Z.to_nat (month - 1)) DAYS_IN_MONTH 0))
      else (month, preceding) in
    (year, month, n - preceding + 1).

(** Day of the week of an ordinal, Monday being 0 and Sunday 6. *)
Definition weekday (n : Z) : Z := (n + 6) mod 7.

End Calendar.

(** ** [datetime] and [timedelta] *)

Definition US_PER_DAY : Z := 86400000000.

Record datetime : Type := mk_datetime {
  toordinal : Z;      (* ordinal of the calendar day *)
  time_of_day : Z     (* microseconds since midnight *)
}.

(** [datetime(year, month, day, hour, minute, second, microsecond)] *)
Definition datetime_of (year month day hour minute second microsecond : Z)
  : datetime :=
  {| toordinal := Calendar.ymd2ord year month day;
     time_of_day := ((hour * 60 + minute) * 60 + second) * 1000000
                    + microsecond |}.

(** [datetime(year, month, day)] *)
Definition date_of (year month day : Z) : datetime :=
  datetime_of year month day 0 0 0 0.

(** A [datetime] that the library can build has its time within the day. *)
Definition wf_datetime (dt : datetime) : Prop :=
  0 <= time_of_day dt < US_PER_DAY.

(** The same time of day, [days] days later; no check of the range. *)
Definition add_days (dt : datetime) (days : Z) : datetime :=
  {| toordinal := toordinal dt + days; time_of_day := time_of_day dt |}.

(** Ordinals of [date.min] (0001-01-01) and [date.max] (9999-12-31). *)
Definition MINORDINAL : Z := 1.
Definition MAXORDINAL : Z := 3652059.

(** Largest number of days a [timedelta] holds. *)
Definition MAX_DELTA_DAYS : Z := 999999999.

(** [timedelta(days)], a whole number of days; it raises
    [OverflowError] beyond [MAX_DELTA_DAYS]. *)
Definition timedelta (days : Z) : result Z :=
  if Z.abs days <=? MAX_DELTA_DAYS then Ok days else Raise OverflowError.

(** [dt + delta]: the calendar day moves, the time stays; it raises
    [OverflowError] when the day leaves the calendar. *)
Definition datetime_add (dt : datetime) (delta : Z) : result datetime :=
  let n := toordinal dt + delta in
  if (MINORDINAL <=? n) && (n <=? MAXORDINAL)
  then Ok (add_days dt delta)
  else Raise OverflowError.

(** Comparison of two [datetime]s: by day, then by time. *)
Definition dt_ltb (a b : datetime) : bool :=
  (toordinal a <? toordinal b)
  || ((toordinal a =? toordinal b) && (time_of_day a <? time_of_day b)).

Definition dt_gtb (a b : datetime) : bool := dt_ltb b a.
Definition dt_leb (a b : datetime) : bool := negb (dt_ltb b a).

(** Midnight of the calendar day with ordinal [n]. *)
Definition midnight (n : Z) : datetime :=
  {| toordinal := n; time_of_day := 0 |}.

(** [Timestamp.normalize]: the time of day is reset to midnight. *)
Definition normalize (dt : datetime) : datetime := midnight (toordinal dt).

(** ** [pandas.date_range(start, end, normalize=...)] at daily frequency *)

(** Microseconds on the time line. *)
Definition timestamp (dt : datetime) : Z :=
  toordinal dt * US_PER_DAY + time_of_day dt.

(** [periods] consecutive days from [start] on. *)
Fixpoint daily (start : datetime) (periods : nat) : list datetime :=
  match periods with
  | O => []
  | S k => start :: daily (add_days start 1) k
  end.

(** Every day [start + k] that is not after [end_]; both bounds are first
    brought to midnight when [norm] is set.  The range is empty when
    [end_] is before [start]. *)
Definition pd_date_range (start end_ : datetime) (norm : bool)
  : list datetime :=
  let s := if norm then normalize start else start in
  let e := if norm then normalize end_ else end_ in
  daily s (Z.to_nat ((timestamp e - timestamp s) / US_PER_DAY + 1)).

(** ** Calls with positional and keyword arguments *)

Inductive value : Type :=
| VNone
| VBool (b : bool)
| VStr (s : string)
| VDatetime (d : datetime).

(** The arguments of a call: those given by position, in order, and
    those given by keyword. *)
Record call : Type := mk_call {
  args : list value;
  kwargs : list (string * value)
}.

Definition lookup (name : string) (kw : list (string * value))
  : option value :=
  match find (fun p => String.eqb (fst p) name) kw with
  | Some p => Some (snd p)
  | None => None
  end.

Definition has_key (name : string) (kw : list (string * value)) : bool :=
  existsb (fun p => String.eqb (fst p) name) kw.

(** The dictionary [keywords] updated with [kw]: a keyword of [kw]
    replaces the one of [keywords] with the same name. *)
Definition update_keywords (keywords kw : list (string * value))
  : list (string * value) :=
  kw ++ filter (fun p => negb (has_key (fst p) kw)) keywords.

(** [functools.partial(func, name=value, ...)]: calling it passes the
    positional arguments on to [func], together with the stored
    keywords updated with the keywords of the call. *)
Definition partial {R : Type} (func : call -> R)
           (keywords : list (string * value)) : call -> R :=
  fun c =>
    func {| args := args c;
            kwargs := update_keywords keywords (kwargs c) |}.

(** Binding of the arguments of a call to the parameters of a function
    [def f(p1=d1, ..., pk=dk)], given as names with their defaults.
    [TypeError] is raised for too many positional arguments, for a
    keyword that is no parameter and for a parameter given both by
    position and by keyword. *)
Definition bind_arguments (params : list (string * value)) (c : call)
  : result (list value) :=
  let names := map fst params in
  let by_position := firstn (List.length (args c)) names in
  if (List.length params <? List.length (args c))%nat then Raise TypeError
  else if existsb (fun p => negb (existsb (String.eqb (fst p)) names))
                  (kwargs c)
  then Raise TypeError
  else if existsb (fun p => existsb (String.eqb (fst p)) by_position)
                  (kwargs c)
  then Raise TypeError
  else Ok (args c
           ++ map (fun p => match lookup (fst p) (kwargs c) with
                            | Some v => v
                            | None => snd p
                            end)
                  (skipn (List.length (args c)) params)).

(** Truth value of an object in a condition. *)
Definition truthy (v : value) : bool :=
  match v with
  | VNone => false
  | VBool b => b
  | VStr s => negb (String.eqb s "")
  | VDatetime _ => true
  end.

(** ** [grigri.dates.scalar]: the bounds of a calendar period *)

(** Modelled from the spec: the frequency codes of [grigri.dates.scalar],
    whose source is not at hand.  The spec lists day, week, month, quarter
    and year; [range.py] itself writes the codes ['w'], ['m'], ['q'] and
    ['y'], one letter each. *)
Inductive Frequency : Type := Day | Week | Month | Quarter | Year.

Definition freq_code (f : Frequency) : string :=
  match f with
  | Day => "d"
  | Week => "w"
  | Month => "m"
  | Quarter => "q"
  | Year => "y"
  end.

Definition all_frequencies : list Frequency :=
  [Day; Week; Month; Quarter; Year].

(** Modelled from the spec: the reading of a frequency code in
    [grigri.dates.scalar].  A string that is no frequency code is an error
    of the resolver, which the callers do not catch. *)
Definition frequency_of_code (code : string) : result Frequency :=
  match find (fun f => String.eqb code (freq_code f)) all_frequencies with
  | Some f => Ok f
  | None => Raise (UnrecognizedFrequency code)
  end.

(** Modelled from the spec: the first month of the calendar quarter of
    [month] (January, April, July or October). *)
Definition quarter_start_month (month : Z) : Z := 3 * ((month - 1) / 3) + 1.

Section Grigri.

(** The wall clock, read when a date argument is left out. *)
Variable now : datetime.

(** The day a week starts with (Monday is 0, as for
    [Calendar.weekday]); taken modulo 7. *)
Variable first_weekday : Z.

(** Modelled from the spec: the first day of the period of [f] that
    contains day [n], by ordinal; the calendar side of [first_of].  The
    spec does not say with which day a week starts, so this is left
    open as [first_weekday]. *)
Definition first_day (n : Z) (f : Frequency) : Z :=
  match f with
  | Day => n
  | Week => n - (Calendar.weekday n - first_weekday) mod 7
  | Month =>
      let '(y, m, _) := Calendar.ord2ymd n in Calendar.ymd2ord y m 1
  | Quarter =>
      let '(y, m, _) := Calendar.ord2ymd n in
      Calendar.ymd2ord y (quarter_start_month m) 1
  | Year =>
      let '(y, _, _) := Calendar.ord2ymd n in Calendar.ymd2ord y 1 1
  end.

(** Modelled from the spec: the last day of the period of [f] that
    contains day [n], by ordinal; the calendar side of [end_of]. *)
Definition last_day (n : Z) (f : Frequency) : Z :=
  match f with
  | Day => n
  | Week => first_day n Week + 6
  | Month =>
      let '(y, m, _) := Calendar.ord2ymd n in
      Calendar.ymd2ord y m (Calendar.days_in_month y m)
  | Quarter =>
      let '(y, m, _) := Calendar.ord2ymd n in
      let m' := quarter_start_month m + 2 in
      Calendar.ymd2ord y m' (Calendar.days_in_month y m')
  | Year =>
      let '(y, _, _) := Calendar.ord2ymd n in Calendar.ymd2ord y 12 31
  end.

(** Modelled from the spec: [first_of] of [grigri.dates.scalar], which
    is imported by [range.py] and whose source is not at hand.  The spec
    has it return "the first calendar date of the period of the given
    frequency containing [dt]", for a frequency among day, week, month,
    quarter and year, and raise for an unrecognized frequency code. *)
Definition first_of (dt : datetime) (freq : string) : result datetime :=
  f <- frequency_of_code freq ;;
  Ok (midnight (first_day (toordinal dt) f)).

(** Modelled from the spec: [end_of] of [grigri.dates.scalar], which is
    imported by [range.py] and whose source is not at hand.  The spec
    has it return "the last calendar date of the period of the given
    frequency containing [dt]", and raise for an unrecognized frequency
    code. *)
Definition end_of (dt : datetime) (freq : string) : result datetime :=
  f <- frequency_of_code freq ;;
  Ok (midnight (last_day (toordinal dt) f)).

(** ** [grigri.dates.range] *)

Definition day_range (num_days : Z) (anchor_date : option datetime)
           (inclusive : bool) : result (list datetime) :=
  _ <- assert (negb (num_days =? 0))
              "day_range must span at least one day" ;;
  let anchor_date :=
    match anchor_date with None => now | Some d => d end in
  let shift := if 0 <? num_days then 1 else -1 in
  delta <- timedelta (num_days - shift) ;;
  swing_date <- datetime_add anchor_date delta ;;
  bounds <- (if negb inclusive
             then
               step <- timedelta shift ;;
               anchor_date <- datetime_add anchor_date step ;;
               step <- timedelta shift ;;
               swing_date <- datetime_add swing_date step ;;
               Ok (anchor_date, swing_date)
             else Ok (anchor_date, swing_date)) ;;
  let '(anchor_date, swing_date) := bounds in
  let '(anchor_date, swing_date) :=
    if dt_gtb anchor_date swing_date
    then (swing_date, anchor_date)
    else (anchor_date, swing_date) in
  Ok (pd_date_range anchor_date swing_date true).

Definition date_range (dt : option datetime) (freq : string)
           (full_range : bool) : result (list datetime) :=
  let dt := match dt with None => now | Some d => d end in
  start_date <- first_of dt freq ;;
  end_date <- (if full_range then end_of dt freq else Ok dt) ;;
  Ok (pd_date_range start_date end_date true).

(** [date_range] as it is called: the arguments are bound to
    [dt=None], [freq='m'] and [full_range=True], then the body runs.
    Modelled from the spec: a [dt] that is neither [None] nor a
    [datetime], or a [freq] that is no string, goes to the resolver of
    [grigri.dates.scalar], whose source is not at hand; the model takes
    it to fail, with [BadArgumentType]. *)
Definition call_date_range (c : call) : result (list datetime) :=
  bound <- bind_arguments
             [("dt", VNone); ("freq", VStr "m"); ("full_range", VBool true)]
             c ;;
  match bound with
  | [VNone; VStr freq; full_range] =>
      date_range None freq (truthy full_range)
  | [VDatetime d; VStr freq; full_range] =>
      date_range (Some d) freq (truthy full_range)
  | _ => Raise BadArgumentType
  end.

Definition week_range := partial call_date_range [("freq", VStr "w")].
Definition month_range := partial call_date_range [("freq", VStr "m")].
Definition quarter_range := partial call_date_range [("freq", VStr "q")].
Definition year_range := partial call_date_range [("freq", VStr "y")].

End Grigri.


(** ** Vocabulary of the properties *)

Definition dt_lt (a b : datetime) : Prop := dt_ltb a b = true.
Definition dt_le (a b : datetime) : Prop := dt_leb a b = true.

(** A sequence of dates at daily step without gaps: every date is the day
    after the one before it. *)
Fixpoint daily_step (l : list datetime) : Prop :=
  match l with
  | a :: (b :: _) as tl => b = add_days a 1 /\ daily_step tl
  | _ => True
  end.

(** A day that the calendar of [datetime] holds. *)
Definition representable (n : Z) : Prop := MINORDINAL <= n <= MAXORDINAL.

(** The argument that passes [dt]: [None] or a [datetime]. *)
Definition value_of_dt (dt : option datetime) : value :=
  match dt with
  | None => VNone
  | Some d => VDatetime d
  end.

(** All dates of the sequence are at midnight. *)
Definition at_midnight (l : list datetime) : Prop :=
  Forall (fun x => time_of_day x = 0) l.

(** [p] holds of the [count] integers from [start] on. *)
Fixpoint forall_from (start : Z) (count : nat) (p : Z -> bool) : bool :=
  match count with
  | O => true
  | S k => if p start then forall_from (start + 1) k p else false
  end.

(** What [ord2ymd] owes at ordinal [n]: a month of the year, a day of
    that month, and the way back through [ymd2ord]. *)
Definition ord2ymd_ok (n : Z) : bool :=
  let '(y, m, d) := Calendar.ord2ymd n in
  (1 <=? m) && (m <=? 12) && (1 <=? d)
  && (d <=? Calendar.days_in_month y m)
  && (Calendar.ymd2ord y m d =? n).

(** The calendar day of [n], its year moved by [k] years. *)
Definition shift_year (k : Z) (ymd : Z * Z * Z) : Z * Z * Z :=
  let '(y, m, d) := ymd in (y + k, m, d).

(** * The calendar *)

Example ymd2ord_2013_09_05 : Calendar.ymd2ord 2013 9 5 = 735116.
Proof. reflexivity. Qed.

Example ord2ymd_735116 : Calendar.ord2ymd 735116 = (2013, 9, 5).
Proof. reflexivity. Qed.

Example weekday_2013_09_05 : Calendar.weekday 735116 = 3.
Proof. reflexivity. Qed.

Lemma forall_from_spec (p : Z -> bool) (count : nat) :
  forall start, forall_from start count p = true ->
  forall z, start <= z < start + Z.of_nat count -> p z = true.
Proof.
  induction count as [|k IH]; simpl forall_from; intros start H z Hz.
  - lia.
  - destruct (p start) eqn:Hk; [|discriminate].
    destruct (Z.eq_dec z start) as [->|Hne]; [exact Hk|].
    apply (IH (start + 1)); [exact H | lia].
Qed.

(** The calendar repeats every 400 years, that is every 146097 days. *)
Lemma is_leap_400 (y k : Z) :
  Calendar.is_leap (y + 400 * k) = Calendar.is_leap y.
Proof.
  unfold Calendar.is_leap.
  replace (y + 400 * k) with (y + (100 * k) * 4) at 1 by ring.
  replace (y + 400 * k) with (y + (4 * k) * 100) at 1 by ring.
  replace (y + 400 * k) with (y + k * 400) by ring.
  now rewrite !Z.mod_add by lia.
Qed.

Lemma days_before_year_400 (y k : Z) :
  Calendar.days_before_year (y + 400 * k)
  = Calendar.days_before_year y + Calendar.DI400Y * k.
Proof.
  unfold Calendar.days_before_year, Calendar.DI400Y; cbv zeta.
  replace (y + 400 * k - 1) with (y - 1 + (100 * k) * 4) at 2 by ring.
  replace (y + 400 * k - 1) with (y - 1 + (4 * k) * 100) at 2 by ring.
  replace (y + 400 * k - 1) with (y - 1 + k * 400) at 2 by ring.
  rewrite !Z.div_add by lia. ring.
Qed.

Lemma days_in_month_400 (y m k : Z) :
  Calendar.days_in_month (y + 400 * k) m = Calendar.days_in_month y m.
Proof. unfold Calendar.days_in_month. now rewrite is_leap_400. Qed.

Lemma ymd2ord_400 (y m d k : Z) :
  Calendar.ymd2ord (y + 400 * k) m d
  = Calendar.ymd2ord y m d + Calendar.DI400Y * k.
Proof.
  unfold Calendar.ymd2ord, Calendar.days_before_month.
  rewrite days_before_year_400, is_leap_400. ring.
Qed.

Lemma ord2ymd_400 (n : Z) :
  Calendar.ord2ymd n
  = shift_year (400 * ((n - 1) / Calendar.DI400Y))
      (Calendar.ord2ymd ((n - 1) mod Calendar.DI400Y + 1)).
Proof.
  unfold Calendar.ord2ymd; cbv zeta.
  replace ((n - 1) mod Calendar.DI400Y + 1 - 1)
    with ((n - 1) mod Calendar.DI400Y) by ring.
  assert (Hr : 0 <= (n - 1) mod Calendar.DI400Y < Calendar.DI400Y)
    by (apply Z.mod_pos_bound; reflexivity).
  rewrite (Z.div_small _ _ Hr), (Z.mod_small _ _ Hr).
  set (r := (n - 1) mod Calendar.DI400Y).
  set (q := (n - 1) / Calendar.DI400Y).
  destruct ((r mod Calendar.DI100Y mod Calendar.DI4Y / 365 =? 4)
            || (r / Calendar.DI100Y =? 4)).
  - unfold shift_year. f_equal. f_equal. ring.
  - match goal with
    | |- (let '(_, _) := ?c in _) = _ => destruct c as [m p]
    end.
    unfold shift_year. f_equal. f_equal. ring.
Qed.

(** One cycle of 400 years, checked day by day. *)
Lemma ord2ymd_ok_cycle :
  forall_from 1 (Z.to_nat Calendar.DI400Y) ord2ymd_ok = true.
Proof. vm_cast_no_check (eq_refl true). Qed.

Lemma ord2ymd_ok_all (n : Z) : ord2ymd_ok n = true.
Proof.
  assert (Hr : 0 <= (n - 1) mod Calendar.DI400Y < Calendar.DI400Y)
    by (apply Z.mod_pos_bound; reflexivity).
  pose proof (forall_from_spec _ _ _ ord2ymd_ok_cycle
                ((n - 1) mod Calendar.DI400Y + 1)) as Hc.
  rewrite Z2Nat.id in Hc by (unfold Calendar.DI400Y; lia).
  specialize (Hc ltac:(lia)).
  unfold ord2ymd_ok in *.
  rewrite (ord2ymd_400 n).
  destruct (Calendar.ord2ymd ((n - 1) mod Calendar.DI400Y + 1))
    as [[y m] d].
  unfold shift_year.
  rewrite days_in_month_400, ymd2ord_400.
  rewrite !andb_true_iff in *.
  destruct Hc as [[[[H1 H2] H3] H4] H5].
  repeat split; try assumption.
  apply Z.eqb_eq in H5. apply Z.eqb_eq.
  pose proof (Z.div_mod (n - 1) Calendar.DI400Y) as Hdm.
  unfold Calendar.DI400Y in *. lia.
Qed.

(** [ord2ymd] names a day of the calendar and [ymd2ord] leads back. *)
Lemma ord2ymd_spec (n y m d : Z) :
  Calendar.ord2ymd n = (y, m, d) ->
  1 <= m <= 12 /\ 1 <= d <= Calendar.days_in_month y m
  /\ Calendar.ymd2ord y m d = n.
Proof.
  intros E. pose proof (ord2ymd_ok_all n) as H.
  unfold ord2ymd_ok in H. rewrite E in H.
  rewrite !andb_true_iff in H.
  destruct H as [[[[H1 H2] H3] H4] H5].
  apply Z.leb_le in H1, H2, H3, H4. apply Z.eqb_eq in H5. lia.
Qed.

(** * Periods of the calendar *)

Ltac month_cases m :=
  let H := fresh in
  assert (H : m = 1 \/ m = 2 \/ m = 3 \/ m = 4 \/ m = 5 \/ m = 6 \/ m = 7
              \/ m = 8 \/ m = 9 \/ m = 10 \/ m = 11 \/ m = 12) by lia;
  repeat (destruct H as [H|H]); subst m.

(** The three months of a quarter surround each of its days. *)
Lemma quarter_months (y m : Z) :
  1 <= m <= 12 ->
  let q := quarter_start_month m in
  Calendar.days_before_month y q <= Calendar.days_before_month y m
  /\ Calendar.days_before_month y m + Calendar.days_in_month y m
     <= Calendar.days_before_month y (q + 2)
        + Calendar.days_in_month y (q + 2).
Proof.
  intros Hm. cbv zeta.
  unfold quarter_start_month, Calendar.days_before_month,
    Calendar.days_in_month.
  month_cases m; destruct (Calendar.is_leap y);
    split; apply Z.leb_le; reflexivity.
Qed.

(** The twelve months of a year surround each of its days. *)
Lemma year_months (y m : Z) :
  1 <= m <= 12 ->
  Calendar.days_before_month y 1 <= Calendar.days_before_month y m
  /\ Calendar.days_before_month y m + Calendar.days_in_month y m
     <= Calendar.days_before_month y 12 + 31.
Proof.
  intros Hm.
  unfold Calendar.days_before_month, Calendar.days_in_month.
  month_cases m; destruct (Calendar.is_leap y);
    split; apply Z.leb_le; reflexivity.
Qed.

Section Periods.

Variable first_weekday : Z.

(** A day lies within its own period, whatever the frequency. *)
Lemma period_bounds (n : Z) (f : Frequency) :
  first_day first_weekday n f <= n <= last_day first_weekday n f.
Proof.
  destruct f; unfold last_day, first_day.
  - lia.
  - pose proof (Z.mod_pos_bound
                  (Calendar.weekday n - first_weekday) 7 eq_refl).
    lia.
  - destruct (Calendar.ord2ymd n) as [[y m] d] eqn:E.
    apply ord2ymd_spec in E. unfold Calendar.ymd2ord in *. lia.
  - destruct (Calendar.ord2ymd n) as [[y m] d] eqn:E.
    apply ord2ymd_spec in E as (Hm & Hd & E).
    pose proof (quarter_months y m Hm) as Hq. cbv zeta in Hq.
    unfold Calendar.ymd2ord in *. lia.
  - destruct (Calendar.ord2ymd n) as [[y m] d] eqn:E.
    apply ord2ymd_spec in E as (Hm & Hd & E).
    pose proof (year_months y m Hm).
    unfold Calendar.ymd2ord in *. lia.
Qed.

End Periods.

Lemma frequency_of_freq_code (f : Frequency) :
  frequency_of_code (freq_code f) = Ok f.
Proof. destruct f; reflexivity. Qed.

Lemma frequency_of_code_inv (code : string) (f : Frequency) :
  frequency_of_code code = Ok f -> code = freq_code f.
Proof.
  unfold frequency_of_code.
  destruct (find _ all_frequencies) as [g|] eqn:E; [|discriminate].
  intros [= ->]. apply find_some in E as [_ E].
  now apply String.eqb_eq in E.
Qed.

(** * Comparing dates *)

Lemma dt_ltb_spec (a b : datetime) :
  dt_ltb a b = true <->
  toordinal a < toordinal b
  \/ (toordinal a = toordinal b /\ time_of_day a < time_of_day b).
Proof.
  unfold dt_ltb.
  rewrite orb_true_iff, andb_true_iff, !Z.ltb_lt, Z.eqb_eq. tauto.
Qed.

Lemma dt_leb_spec (a b : datetime) :
  dt_leb a b = true <->
  toordinal a < toordinal b
  \/ (toordinal a = toordinal b /\ time_of_day a <= time_of_day b).
Proof.
  unfold dt_leb. rewrite negb_true_iff, <- not_true_iff_false, dt_ltb_spec.
  lia.
Qed.

Lemma dt_gtb_add_days (a : datetime) (i j : Z) :
  dt_gtb (add_days a i) (add_days a j) = (j <? i).
Proof.
  unfold dt_gtb, dt_ltb, add_days; simpl.
  rewrite Z.ltb_irrefl, andb_false_r, orb_false_r.
  destruct (j <? i) eqn:E; [apply Z.ltb_lt in E | apply Z.ltb_ge in E].
  - apply Z.ltb_lt. lia.
  - apply Z.ltb_ge. lia.
Qed.

Lemma add_days_add_days (a : datetime) (i j : Z) :
  add_days (add_days a i) j = add_days a (i + j).
Proof. unfold add_days; simpl. f_equal. ring. Qed.

Lemma normalize_add_days (a : datetime) (i : Z) :
  normalize (add_days a i) = midnight (toordinal a + i).
Proof. reflexivity. Qed.

Lemma midnight_add_days (n i : Z) :
  add_days (midnight n) i = midnight (n + i).
Proof. reflexivity. Qed.

Lemma normalize_midnight (n : Z) : normalize (midnight n) = midnight n.
Proof. reflexivity. Qed.

Lemma add_days_0 (a : datetime) : add_days a 0 = a.
Proof. destruct a as [n t]. unfold add_days; simpl. now rewrite Z.add_0_r. Qed.

Lemma dt_lt_add_days (a : datetime) (i j : Z) :
  i < j -> dt_lt (add_days a i) (add_days a j).
Proof.
  intros Hij. unfold dt_lt, dt_ltb, add_days; simpl.
  apply orb_true_iff. left. apply Z.ltb_lt. lia.
Qed.

(** * Daily sequences *)

Lemma daily_length (k : nat) : forall s, List.length (daily s k) = k.
Proof. induction k as [|k IH]; intros s; simpl; [|rewrite IH]; reflexivity. Qed.

Lemma daily_In (k : nat) :
  forall s x,
    In x (daily s k) <->
    exists i, 0 <= i < Z.of_nat k /\ x = add_days s i.
Proof.
  induction k as [|k IH]; intros s x; simpl daily.
  - split; [intros [] | intros (i & Hi & _); simpl in Hi; lia].
  - simpl In. rewrite IH. split.
    + intros [<- | (i & Hi & ->)].
      * exists 0. rewrite add_days_0. split; [lia | reflexivity].
      * exists (1 + i). rewrite add_days_add_days. split; [lia | reflexivity].
    + intros (i & Hi & ->).
      destruct (Z.eq_dec i 0) as [-> | Hne].
      * left. now rewrite add_days_0.
      * right. exists (i - 1). rewrite add_days_add_days.
        split; [lia | f_equal; ring].
Qed.

Lemma daily_step_daily (k : nat) : forall s, daily_step (daily s k).
Proof.
  induction k as [|k IH]; intros s; [exact I|].
  specialize (IH (add_days s 1)).
  destruct k as [|k]; [exact I|].
  simpl in *. split; [reflexivity | exact IH].
Qed.

Lemma daily_ascending (k : nat) : forall s, StronglySorted dt_lt (daily s k).
Proof.
  induction k as [|k IH]; intros s; simpl; constructor.
  - apply IH.
  - apply Forall_forall. intros x Hx.
    apply daily_In in Hx as (i & Hi & ->).
    rewrite add_days_add_days, <- (add_days_0 s) at 1.
    apply dt_lt_add_days. lia.
Qed.

Lemma daily_at_midnight (k : nat) :
  forall s, time_of_day s = 0 -> at_midnight (daily s k).
Proof.
  intros s Hs. apply Forall_forall. intros x Hx.
  apply daily_In in Hx as (i & _ & ->). exact Hs.
Qed.

Lemma daily_hd (k : nat) (s : datetime) :
  k <> O -> hd_error (daily s k) = Some s.
Proof. destruct k; [congruence | reflexivity]. Qed.

Lemma daily_last (k : nat) :
  forall s x, last (daily s (S k)) x = add_days s (Z.of_nat k).
Proof.
  induction k as [|k IH]; intros s x.
  - simpl. now rewrite add_days_0.
  - change (daily s (S (S k))) with (s :: daily (add_days s 1) (S k)).
    change (last (s :: daily (add_days s 1) (S k)) x)
      with (last (daily (add_days s 1) (S k)) x).
    rewrite IH, add_days_add_days. f_equal. lia.
Qed.

(** With [normalize=True] the range runs over the calendar days from
    that of [start] to that of [end_]. *)
Lemma pd_date_range_normalized (s e : datetime) :
  pd_date_range s e true
  = daily (midnight (toordinal s))
          (Z.to_nat (toordinal e - toordinal s + 1)).
Proof.
  unfold pd_date_range, normalize, timestamp, midnight; simpl.
  f_equal. f_equal.
  rewrite !Z.add_0_r, <- Z.mul_sub_distr_r.
  now rewrite Z.div_mul by (unfold US_PER_DAY; lia).
Qed.

(** The days of a range from day [lo] to day [hi], when [lo <= hi]. *)
Lemma daily_between (lo hi : Z) (x : datetime) :
  In x (daily (midnight lo) (Z.to_nat (hi - lo + 1))) <->
  exists n, lo <= n <= hi /\ x = midnight n.
Proof.
  rewrite daily_In. split.
  - intros (i & Hi & ->). exists (lo + i). rewrite midnight_add_days.
    split; [lia | reflexivity].
  - intros (n & Hn & ->). exists (n - lo). rewrite midnight_add_days.
    split; [lia | f_equal; ring].
Qed.

(** * The ranges of [grigri.dates.range] *)

(** The two outcomes of [timedelta] and of [datetime_add]. *)
Lemma timedelta_spec (days : Z) :
  (Z.abs days <= MAX_DELTA_DAYS /\ timedelta days = Ok days)
  \/ (MAX_DELTA_DAYS < Z.abs days /\ timedelta days = Raise OverflowError).
Proof.
  unfold timedelta.
  destruct (Z.abs days <=? MAX_DELTA_DAYS) eqn:E;
    [apply Z.leb_le in E | apply Z.leb_gt in E]; auto.
Qed.

Lemma datetime_add_spec (dt : datetime) (delta : Z) :
  (representable (toordinal dt + delta)
   /\ datetime_add dt delta = Ok (add_days dt delta))
  \/ (~ representable (toordinal dt + delta)
      /\ datetime_add dt delta = Raise OverflowError).
Proof.
  unfold datetime_add, representable.
  destruct (MINORDINAL <=? toordinal dt + delta) eqn:E1;
    [apply Z.leb_le in E1 | apply Z.leb_gt in E1];
    (destruct (toordinal dt + delta <=? MAXORDINAL) eqn:E2;
     [apply Z.leb_le in E2 | apply Z.leb_gt in E2]);
    simpl; [left | right | right | right]; split; auto; lia.
Qed.

(** One step of date arithmetic in a goal, with both of its outcomes. *)
Ltac arith_step :=
  match goal with
  | |- context [timedelta ?d] =>
      let H := fresh "Hdelta" in
      destruct (timedelta_spec d) as [[H ->] | [H ->]]
  | |- context [datetime_add ?x ?d] =>
      let H := fresh "Hday" in
      destruct (datetime_add_spec x d) as [[H ->] | [H ->]]
  end;
  cbn [bind].

Lemma toordinal_add_days (a : datetime) (k : Z) :
  toordinal (add_days a k) = toordinal a + k.
Proof. reflexivity. Qed.

Ltac window :=
  unfold representable, MINORDINAL, MAXORDINAL, MAX_DELTA_DAYS in *;
  rewrite ?toordinal_add_days in *.

Lemma dt_gtb_same_time (a b : datetime) :
  time_of_day a = time_of_day b ->
  dt_gtb a b = (toordinal b <? toordinal a).
Proof.
  intros Ht. unfold dt_gtb, dt_ltb.
  rewrite Ht, Z.ltb_irrefl, andb_false_r, orb_false_r. reflexivity.
Qed.

(** The range between two dates with the same time of day, put in
    order as [day_range] does. *)
Lemma ordered_range (x y : datetime) :
  time_of_day x = time_of_day y ->
  (let '(anchor_date, swing_date) :=
     if dt_gtb x y then (y, x) else (x, y) in
   Ok (pd_date_range anchor_date swing_date true))
  = Ok (daily (midnight (Z.min (toordinal x) (toordinal y)))
              (Z.to_nat (Z.abs (toordinal y - toordinal x) + 1))).
Proof.
  intros Ht. rewrite (dt_gtb_same_time _ _ Ht).
  destruct (toordinal y <? toordinal x) eqn:E;
    [apply Z.ltb_lt in E | apply Z.ltb_ge in E];
    rewrite pd_date_range_normalized; f_equal; f_equal;
    try (f_equal; lia); lia.
Qed.

Section Ranges.

Variable now : datetime.
Variable first_weekday : Z.

(** First calendar day of [day_range num_days anchor inclusive], as an
    offset from the day of the anchor, when the far end of the range,
    [anchor + (n - shift)] or [anchor + n], is a day of the calendar. *)
Lemma day_range_days (n : Z) (a : datetime) (inclusive : bool) :
  n <> 0 ->
  representable (toordinal a) ->
  representable (toordinal a
                 + (if inclusive then n - (if 0 <? n then 1 else -1)
                    else n)) ->
  day_range now n (Some a) inclusive
  = Ok (daily (midnight (toordinal a
                         + (if 0 <? n then 0 else n + 1)
                         + (if inclusive then 0
                            else if 0 <? n then 1 else -1)))
              (Z.abs_nat n)).
Proof.
  intros Hn Ha Hfar. unfold day_range, assert.
  destruct (n =? 0) eqn:E0; [apply Z.eqb_eq in E0; contradiction|].
  cbn [negb bind].
  destruct (0 <? n) eqn:Epos;
    [apply Z.ltb_lt in Epos | apply Z.ltb_ge in Epos];
    destruct inclusive; cbn [negb];
    repeat arith_step; try (window; lia);
    cbv beta iota; rewrite ordered_range by reflexivity;
    window; f_equal; f_equal; try (f_equal; lia); lia.
Qed.

(** Beyond the calendar [day_range] raises. *)
Lemma day_range_overflows (n : Z) (a : datetime) (inclusive : bool) :
  n <> 0 ->
  representable (toordinal a) ->
  ~ representable (toordinal a
                   + (if inclusive then n - (if 0 <? n then 1 else -1)
                      else n)) ->
  day_range now n (Some a) inclusive = Raise OverflowError.
Proof.
  intros Hn Ha Hfar. unfold day_range, assert.
  destruct (n =? 0) eqn:E0; [apply Z.eqb_eq in E0; contradiction|].
  cbn [negb bind].
  destruct (0 <? n) eqn:Epos;
    [apply Z.ltb_lt in Epos | apply Z.ltb_ge in Epos];
    destruct inclusive; cbn [negb];
    repeat arith_step; try reflexivity; window; lia.
Qed.

(** The outcome of [day_range] depends on the day of the anchor only. *)
Lemma day_range_same_day (n : Z) (a b : datetime) (inclusive : bool) :
  toordinal a = toordinal b ->
  day_range now n (Some a) inclusive = day_range now n (Some b) inclusive.
Proof.
  intros Hab. unfold day_range, assert.
  destruct (n =? 0); cbn [negb bind]; [reflexivity|].
  destruct (0 <? n); destruct inclusive; cbn [negb];
    unfold timedelta, datetime_add; cbn [toordinal add_days];
    rewrite ?Hab;
    repeat (match goal with
            | |- context [if ?c then _ else _] =>
                lazymatch c with
                | context [dt_gtb] => fail
                | _ => destruct c eqn:?
                end
            end;
            cbn [negb bind toordinal add_days]; rewrite ?Hab);
    try reflexivity;
    cbv beta iota; rewrite !ordered_range by reflexivity;
    cbn [toordinal add_days]; rewrite ?Hab; reflexivity.
Qed.

(** The result of [date_range] for a frequency of the resolver: the days
    from the first of the period to its last, or to the day of [d]. *)
Lemma date_range_days (d : datetime) (f : Frequency) (full_range : bool) :
  date_range now first_weekday (Some d) (freq_code f) full_range
  = Ok (daily (midnight (first_day first_weekday (toordinal d) f))
              (Z.to_nat ((if full_range
                          then last_day first_weekday (toordinal d) f
                          else toordinal d)
                         - first_day first_weekday (toordinal d) f + 1))).
Proof.
  unfold date_range, first_of, end_of.
  rewrite frequency_of_freq_code. simpl bind.
  destruct full_range; simpl bind; now rewrite pd_date_range_normalized.
Qed.

(** ** The day-span builder *)


(** C2: [day_range 0 a] fails, whatever the anchor and [inclusive]: the
    assertion on [num_days] raises and no range is returned. *)
Theorem day_range_zero (a : option datetime) (inclusive : bool) :
  day_range now 0 a inclusive
  = Raise (AssertionError "day_range must span at least one day").
Proof. reflexivity. Qed.


(** C6: the example of the docstring.  [day_range(-6, datetime(2013,9,5),
    inclusive=False)] is the six days from 2013-08-30 to 2013-09-04, in
    ascending order. *)
Theorem day_range_docstring :
  day_range now (-6) (Some (date_of 2013 9 5)) false
  = Ok [date_of 2013 8 30; date_of 2013 8 31; date_of 2013 9 1;
        date_of 2013 9 2; date_of 2013 9 3; date_of 2013 9 4].
Proof. reflexivity. Qed.


(** ** The period-range builder *)

Lemma first_of_code (d : datetime) (f : Frequency) :
  first_of first_weekday d (freq_code f)
  = Ok (midnight (first_day first_weekday (toordinal d) f)).
Proof. unfold first_of. now rewrite frequency_of_freq_code. Qed.

Lemma end_of_code (d : datetime) (f : Frequency) :
  end_of first_weekday d (freq_code f)
  = Ok (midnight (last_day first_weekday (toordinal d) f)).
Proof. unfold end_of. now rewrite frequency_of_freq_code. Qed.

(** A range over the days [lo], ..., [hi] with [lo <= hi]. *)
Lemma daily_range_facts (lo hi : Z) :
  lo <= hi ->
  let l := daily (midnight lo) (Z.to_nat (hi - lo + 1)) in
  hd_error l = Some (midnight lo)
  /\ (forall x, last l x = midnight hi)
  /\ l <> []
  /\ daily_step l
  /\ StronglySorted dt_lt l
  /\ at_midnight l.
Proof.
  intros Hle l. subst l.
  assert (Hk : Z.to_nat (hi - lo + 1) = S (Z.to_nat (hi - lo))) by lia.
  rewrite Hk. repeat split.
  - intros x. rewrite daily_last, midnight_add_days. f_equal. lia.
  - discriminate.
  - apply daily_step_daily.
  - apply daily_ascending.
  - now apply daily_at_midnight.
Qed.




(** A call of [date_range] with its three arguments by position. *)
Lemma call_date_range_positional (d : option datetime) (code : string)
      (full_range : bool) :
  call_date_range now first_weekday
    (mk_call [value_of_dt d; VStr code; VBool full_range] [])
  = date_range now first_weekday d code full_range.
Proof. destruct d; reflexivity. Qed.

(** A call of a wrapper with the date by position and [full_range] by
    keyword. *)
Lemma partial_freq_by_keyword (d : option datetime) (code : string)
      (full_range : bool) :
  partial (call_date_range now first_weekday) [("freq", VStr code)]
    (mk_call [value_of_dt d] [("full_range", VBool full_range)])
  = date_range now first_weekday d code full_range.
Proof. destruct d; reflexivity. Qed.

(** C8, amended: called with [full_range] by keyword, each wrapper is
    [date_range] with its frequency fixed: [week_range(d,
    full_range=b)] is [date_range(d, 'w', b)], and so on for ['m'],
    ['q'] and ['y']. *)
Theorem wrappers_are_date_range (d : option datetime) (full_range : bool) :
  week_range now first_weekday
    (mk_call [value_of_dt d] [("full_range", VBool full_range)])
  = call_date_range now first_weekday
      (mk_call [value_of_dt d; VStr "w"; VBool full_range] [])
  /\ month_range now first_weekday
       (mk_call [value_of_dt d] [("full_range", VBool full_range)])
     = call_date_range now first_weekday
         (mk_call [value_of_dt d; VStr "m"; VBool full_range] [])
  /\ quarter_range now first_weekday
       (mk_call [value_of_dt d] [("full_range", VBool full_range)])
     = call_date_range now first_weekday
         (mk_call [value_of_dt d; VStr "q"; VBool full_range] [])
  /\ year_range now first_weekday
       (mk_call [value_of_dt d] [("full_range", VBool full_range)])
     = call_date_range now first_weekday
         (mk_call [value_of_dt d; VStr "y"; VBool full_range] []).
Proof.
  unfold week_range, month_range, quarter_range, year_range.
  rewrite !partial_freq_by_keyword, !call_date_range_positional.
  repeat split.
Qed.

(** What the resolver returns is at midnight. *)
Lemma first_of_at_midnight (d s : datetime) (code : string) :
  first_of first_weekday d code = Ok s -> normalize s = s.
Proof.
  unfold first_of.
  destruct (frequency_of_code code); [|discriminate].
  now intros [= <-].
Qed.


End Ranges.

(** * The theorems at concrete dates *)

Lemma representable_check (n : Z) :
  (MINORDINAL <=? n) && (n <=? MAXORDINAL) = true -> representable n.
Proof.
  intros H. apply andb_true_iff in H as [H1 H2].
  apply Z.leb_le in H1, H2. split; assumption.
Defined.





(** C8 as first stated fails when [full_range] is passed by position:
    it lands on [freq], which the wrapper has already given by
    keyword, and the call raises [TypeError], where [date_range(d, 'w',
    full_range)] returns the week. *)
Lemma wrappers_positional_full_range :
  week_range (date_of 2020 2 29) 0
    (mk_call [VDatetime (date_of 2013 9 5); VBool true] [])
  = Raise TypeError
  /\ call_date_range (date_of 2020 2 29) 0
       (mk_call [VDatetime (date_of 2013 9 5); VStr "w"; VBool true] [])
     = Ok [date_of 2013 9 2; date_of 2013 9 3; date_of 2013 9 4;
           date_of 2013 9 5; date_of 2013 9 6; date_of 2013 9 7;
           date_of 2013 9 8]
  /\ week_range (date_of 2020 2 29) 0
       (mk_call [VDatetime (date_of 2013 9 5); VBool true] [])
     <> call_date_range (date_of 2020 2 29) 0
          (mk_call [VDatetime (date_of 2013 9 5); VStr "w"; VBool true] []).
Proof.
  split; [reflexivity|]. split; [reflexivity|]. discriminate.
Qed.



(** The scenarios of a month and of a week, run. *)
Example month_range_2013_09_15 :
  month_range (date_of 2020 2 29) 0
    (mk_call [VDatetime (date_of 2013 9 15)] [("full_range", VBool false)])
  = Ok (daily (date_of 2013 9 1) 15).
Proof. reflexivity. Qed.

Example week_range_2013_09_05 :
  week_range (date_of 2020 2 29) 0
    (mk_call [VDatetime (date_of 2013 9 5)] [])
  = Ok [date_of 2013 9 2; date_of 2013 9 3; date_of 2013 9 4;
        date_of 2013 9 5; date_of 2013 9 6; date_of 2013 9 7;
        date_of 2013 9 8].
Proof. reflexivity. Qed.

Example date_range_unknown_code :
  date_range (date_of 2020 2 29) 0 (Some (date_of 2013 9 5)) "x" true
  = Raise (UnrecognizedFrequency "x").
Proof. reflexivity. Qed.

(** * More on the day-span builder *)

Lemma daily_app (n m : nat) :
  forall s,
    daily s (n + m) = daily s n ++ daily (add_days s (Z.of_nat n)) m.
Proof.
  induction n as [|n IH]; intros s.
  - simpl. now rewrite add_days_0.
  - change (daily s (S n + m)) with (s :: daily (add_days s 1) (n + m)).
    rewrite IH, add_days_add_days.
    replace (1 + Z.of_nat n) with (Z.of_nat (S n)) by lia. reflexivity.
Qed.

Lemma daily_ends (k : nat) (s : datetime) :
  k <> O ->
  hd_error (daily s k) = Some s
  /\ forall x, last (daily s k) x = add_days s (Z.of_nat k - 1).
Proof.
  intros Hk. destruct k as [|k]; [congruence|].
  split; [reflexivity|].
  intros x. rewrite daily_last. f_equal. lia.
Qed.

Lemma daily_map_add_days (k : nat) (j : Z) :
  forall s,
    daily (add_days s j) k = map (fun x => add_days x j) (daily s k).
Proof.
  induction k as [|k IH]; intros s; simpl; [reflexivity|].
  f_equal. rewrite <- IH, !add_days_add_days. do 2 f_equal. ring.
Qed.

(** Two ranges are equal when their first days and lengths are. *)
Ltac same_days :=
  repeat match goal with
         | |- Ok _ = Ok _ => f_equal
         | |- _ ++ _ = _ ++ _ => f_equal
         | |- daily _ _ = daily _ _ => f_equal
         | |- midnight _ = midnight _ => f_equal
         end;
  try lia.

Lemma sign_cases (n : Z) :
  n <> 0 ->
  (0 < n /\ (0 <? n) = true) \/ (n < 0 /\ (0 <? n) = false).
Proof.
  intros Hn. destruct (0 <? n) eqn:E;
    [apply Z.ltb_lt in E; left | apply Z.ltb_ge in E; right];
    split; auto; lia.
Qed.

(** Case analysis on the direction of a span, in the goal and in the
    hypotheses. *)
Ltac by_sign Hn :=
  let Hs := fresh "Hsign" in
  let E := fresh "Esign" in
  destruct (sign_cases _ Hn) as [[Hs E] | [Hs E]];
  try rewrite E in *.

Section MoreRanges.

Variable now : datetime.
Variable first_weekday : Z.

(** A forward and a backward span, when they stay in the calendar. *)
Lemma day_range_forward (n : Z) (a : datetime) (inclusive : bool) :
  0 < n ->
  representable (toordinal a) ->
  representable (toordinal a + (if inclusive then n - 1 else n)) ->
  day_range now n (Some a) inclusive
  = Ok (daily (midnight (toordinal a + (if inclusive then 0 else 1)))
              (Z.to_nat n)).
Proof.
  intros Hn Ha Hfar.
  assert (E : (0 <? n) = true) by (apply Z.ltb_lt; lia).
  rewrite day_range_days; [| lia | assumption | now rewrite E].
  rewrite E. destruct inclusive; same_days.
Qed.

Lemma day_range_backward (n : Z) (a : datetime) (inclusive : bool) :
  0 < n ->
  representable (toordinal a) ->
  representable (toordinal a - (if inclusive then n - 1 else n)) ->
  day_range now (- n) (Some a) inclusive
  = Ok (daily (midnight (toordinal a - (if inclusive then n - 1 else n)))
              (Z.to_nat n)).
Proof.
  intros Hn Ha Hfar.
  assert (E : (0 <? - n) = false) by (apply Z.ltb_ge; lia).
  rewrite day_range_days; [| lia | assumption | rewrite E].
  - rewrite E. destruct inclusive; same_days.
  - destruct inclusive; window; lia.
Qed.












(** * More on the period-range builder *)





(** ** The wrappers as they are called *)

(** A wrapper called with the date by position or left out, and
    [full_range] by keyword or left out. *)
Lemma partial_freq_calls (d : option datetime) (code : string)
      (full_range : bool) :
  let range :=
    partial (call_date_range now first_weekday) [("freq", VStr code)] in
  range (mk_call [] []) = date_range now first_weekday None code true
  /\ range (mk_call [value_of_dt d] [])
     = date_range now first_weekday d code true
  /\ range (mk_call [] [("full_range", VBool full_range)])
     = date_range now first_weekday None code full_range
  /\ range (mk_call [value_of_dt d] [("full_range", VBool full_range)])
     = date_range now first_weekday d code full_range.
Proof. destruct d; repeat split. Qed.

Lemma date_range_not_empty (dt : option datetime) (f : Frequency)
      (full_range : bool) :
  exists l,
    date_range now first_weekday dt (freq_code f) full_range = Ok l
    /\ l <> [].
Proof.
  set (d := match dt with None => now | Some d => d end).
  assert (E : date_range now first_weekday dt (freq_code f) full_range
              = date_range now first_weekday (Some d) (freq_code f)
                  full_range) by (destruct dt; reflexivity).
  rewrite E, date_range_days.
  pose proof (period_bounds first_weekday (toordinal d) f) as Hb.
  eexists. split; [reflexivity|].
  assert (Hle : first_day first_weekday (toordinal d) f
                <= (if full_range
                    then last_day first_weekday (toordinal d) f
                    else toordinal d))
    by (destruct full_range; lia).
  now destruct (daily_range_facts _ _ Hle) as (_ & _ & Hne & _).
Qed.


Lemma has_key_update (name : string) (v : value)
      (kw : list (string * value)) :
  has_key name (update_keywords [(name, v)] kw) = true.
Proof.
  unfold update_keywords, has_key. rewrite existsb_app.
  destruct (existsb (fun p => String.eqb (fst p) name) kw) eqn:E;
    [reflexivity|].
  simpl. unfold has_key. rewrite E. simpl.
  now rewrite String.eqb_refl.
Qed.

(** X17: a wrapper takes one positional argument only: with two or
    more, the second lands on [freq], which the wrapper gives by
    keyword, and the call raises [TypeError], whatever the arguments
    and the keywords of the call are. *)
Theorem wrappers_second_positional (v w : value) (rest : list value)
        (kw : list (string * value)) :
  Forall (fun range => range (mk_call (v :: w :: rest) kw) = Raise TypeError)
         [week_range now first_weekday; month_range now first_weekday;
          quarter_range now first_weekday; year_range now first_weekday].
Proof.
  assert (H : forall code,
             partial (call_date_range now first_weekday)
                     [("freq", VStr code)] (mk_call (v :: w :: rest) kw)
             = Raise TypeError).
  { intros code. unfold partial, call_date_range, bind_arguments.
    cbn [args kwargs].
    destruct (_ <? _)%nat; [reflexivity|].
    destruct (existsb _ (update_keywords _ kw)); [reflexivity|].
    match goal with
    | |- context [if ?c then _ else _] =>
        assert (E : c = true); [|rewrite E; reflexivity]
    end.
    pose proof (has_key_update "freq" (VStr code) kw) as Hk.
    unfold has_key in Hk. apply existsb_exists in Hk as (p & Hp & Hfreq).
    apply existsb_exists. exists p. split; [exact Hp|].
    apply String.eqb_eq in Hfreq. rewrite Hfreq.
    destruct rest; reflexivity. }
  repeat constructor; apply H.
Qed.

(** X18: the frequency of a wrapper is a default, not a constant: a
    [freq] given by keyword at the call replaces it, so that
    [week_range(d, freq=c, full_range=b)] is [date_range(d, c, b)], and
    the same for the three other wrappers. *)
Theorem wrappers_freq_keyword (d : option datetime) (code : string)
        (full_range : bool) :
  Forall (fun range =>
            range (mk_call [value_of_dt d]
                           [("freq", VStr code);
                            ("full_range", VBool full_range)])
            = date_range now first_weekday d code full_range)
         [week_range now first_weekday; month_range now first_weekday;
          quarter_range now first_weekday; year_range now first_weekday].
Proof. destruct d; repeat constructor. Qed.

End MoreRanges.

(** * The further theorems at concrete dates *)

Ltac in_calendar := apply representable_check; reflexivity.











